(** * The joke generator: the [useJoke] hook and the [Joke] component

    A shallow embedding of [src/hooks/useJoke.js], [components/Joke.jsx] and
    [components/Button.jsx].

    The hook keeps three React state variables ([joke], [isLoading],
    [error]) and offers two operations, the asynchronous [fetchJoke] and the
    synchronous [clearJoke].  The embedding is a state monad over the three
    variables with JavaScript completions (normal, thrown, suspended at an
    [await]); every setter call, the network request and the [console.error]
    call are appended to a trace, so that the order of the effects of one
    invocation can be stated. *)

From Stdlib Require Import String Ascii List Bool NArith Lia PrimFloat.
From Stdlib Require Import DecimalString DecimalN.
Import ListNotations.
Local Open Scope string_scope.
Set Warnings "-register-all".

(** ** JavaScript values *)

Module Js.

(** The values that reach the hook: what [JSON.parse] builds, plus
    [undefined], which a missing property reads as.  Numbers are IEEE 754
    doubles.  An object is the list of its members in the order of the JSON
    text; a later member of the same name overrides an earlier one, as in
    [JSON.parse]. *)
Inductive value : Type :=
| VUndefined
| VNull
| VBool (b : bool)
| VNum (n : float)
| VStr (s : string)
| VArr (items : list value)
| VObj (members : list (string * value)).

(** An [Error] object: [new Error(msg)], or the [TypeError] / [SyntaxError] /
    [DOMException] the platform throws.  Only [message] is read by the
    hook. *)
Record Error : Type := mkError { name : string; message : string }.

(** ToBoolean. *)
Definition truthy (v : value) : bool :=
  match v with
  | VUndefined | VNull => false
  | VBool b => b
  | VNum n => negb (PrimFloat.eqb n PrimFloat.zero) && negb (PrimFloat.is_nan n)
  | VStr s => negb (String.eqb s EmptyString)
  | VArr _ | VObj _ => true
  end.

(** The last member called [key], if any. *)
Fixpoint lookup_member (key : string) (members : list (string * value))
  : option value :=
  match members with
  | [] => None
  | (k, v) :: rest =>
      match lookup_member key rest with
      | Some v' => Some v'
      | None => if String.eqb k key then Some v else None
      end
  end.

(** The message of the [TypeError] raised by reading a property of [null] or
    [undefined] (V8's wording; no statement below depends on the text). *)
Definition cannot_read (of_what key : string) : Error :=
  mkError "TypeError"
    ("Cannot read properties of " ++ of_what ++ " (reading '" ++ key ++ "')").

(** [v.key] for a [key] that no built-in prototype defines (such as [joke]):
    reading it from [null] or [undefined] throws, from a primitive or an
    array gives [undefined], from an object gives the own property. *)
Definition get_property (v : value) (key : string) : Error + value :=
  match v with
  | VUndefined => inl (cannot_read "undefined" key)
  | VNull => inl (cannot_read "null" key)
  | VBool _ | VNum _ | VStr _ | VArr _ => inr VUndefined
  | VObj members =>
      match lookup_member key members with
      | Some x => inr x
      | None => inr VUndefined
      end
  end.

(** ToString of a non-negative integer number, as a template literal
    [`${n}`] renders it: its decimal digits. *)
Definition string_of_N (n : N) : string :=
  NilEmpty.string_of_uint (N.to_uint n).

End Js.
Import Js.

(** ** The platform: promises and the Fetch API *)

(** How an awaited promise settles. *)
Inductive settled (A : Type) : Type :=
| Fulfilled (a : A)
| Rejected (e : Error).
Arguments Fulfilled {A} a.
Arguments Rejected {A} e.

(** A [Response]: its status code and how the promise of [response.json()]
    settles (with the parsed body, or rejected when the body is not JSON). *)
Record Response : Type := mkResponse {
  status : N;
  json : settled value
}.

(** [response.ok]: the status is in the range 200 to 299 (Fetch standard). *)
Definition ok (r : Response) : bool :=
  (200 <=? status r)%N && (status r <=? 299)%N.

(** ** The hook's state and effects *)

(** The three [useState] cells of [useJoke]. *)
Record FetchState : Type := mkState {
  joke : value;
  isLoading : bool;
  error : value
}.

(** What one call does to the outside, in order. *)
Inductive Effect : Type :=
| SetJoke (v : value)
| SetIsLoading (b : bool)
| SetError (v : value)
| HttpGet (url : string)
| ConsoleError (label : string) (err : Error).

(** The hook's cells, the effects so far (oldest first), and how many more
    times the event loop resumes the running invocation after an [await]. *)
Record World : Type := mkWorld {
  cells : FetchState;
  trace : list Effect;
  resumes : nat
}.

(** How a piece of code ends: normally, by a throw, or suspended at an
    [await] that has not been resumed. *)
Inductive completion (A : Type) : Type :=
| Normal (a : A)
| Throw (e : Error)
| Pending.
Arguments Normal {A} a.
Arguments Throw {A} e.
Arguments Pending {A}.

Definition M (A : Type) : Type := World -> completion A * World.

Definition ret {A} (a : A) : M A := fun w => (Normal a, w).

Definition bind {A B} (m : M A) (k : A -> M B) : M B :=
  fun w =>
    match m w with
    | (Normal a, w') => k a w'
    | (Throw e, w') => (Throw e, w')
    | (Pending, w') => (Pending, w')
    end.

Definition throw {A} (e : Error) : M A := fun w => (Throw e, w).

Declare Scope js_scope.
Delimit Scope js_scope with js.
Notation "x <- c1 ;; c2" := (bind c1 (fun x => c2))
  (at level 100, c1 at next level, right associativity) : js_scope.
Notation "c1 ;; c2" := (bind c1 (fun _ => c2))
  (at level 100, right associativity) : js_scope.
Local Open Scope js_scope.

(** [await p]: suspends; when the invocation is resumed, continues with the
    value of [p] or throws its rejection reason. *)
Definition await {A} (p : settled A) : M A :=
  fun w =>
    match resumes w with
    | O => (Pending, w)
    | S n =>
        (match p with Fulfilled a => Normal a | Rejected e => Throw e end,
         mkWorld (cells w) (trace w) n)
    end.

(** [try { body } catch (err) { handler } finally { finalizer }]. *)
Definition try_catch_finally {A} (body : M A) (handler : Error -> M A)
  (finalizer : M unit) : M A :=
  fun w =>
    let run_finalizer (r : completion A * World) :=
      match r with
      | (Pending, w1) => (Pending, w1)
      | (c, w1) =>
          match finalizer w1 with
          | (Normal _, w2) => (c, w2)
          | (Throw e, w2) => (Throw e, w2)
          | (Pending, w2) => (Pending, w2)
          end
      end in
    match body w with
    | (Throw e, w1) => run_finalizer (handler e w1)
    | r => run_finalizer r
    end.

Definition emit (e : Effect) : M unit :=
  fun w => (Normal tt, mkWorld (cells w) (trace w ++ [e]) (resumes w)).

Definition update (f : FetchState -> FetchState) : M unit :=
  fun w => (Normal tt, mkWorld (f (cells w)) (trace w) (resumes w)).

(** The setters returned by [useState]. *)
Definition setJoke (v : value) : M unit :=
  emit (SetJoke v) ;;
  update (fun s => mkState v (isLoading s) (error s)).

Definition setIsLoading (b : bool) : M unit :=
  emit (SetIsLoading b) ;;
  update (fun s => mkState (joke s) b (error s)).

Definition setError (v : value) : M unit :=
  emit (SetError v) ;;
  update (fun s => mkState (joke s) (isLoading s) v).

(** [fetch(url)]: sends the request and returns the promise of the
    response, which settles as the network decides. *)
Definition fetch (net : settled Response) (url : string)
  : M (settled Response) :=
  emit (HttpGet url) ;;
  ret net.

Definition console_error (label : string) (err : Error) : M unit :=
  emit (ConsoleError label err).

(** ** [useJoke] *)

Module useJoke.

(** The initial values given to the three [useState] calls: the empty
    string, [false] and [null]. *)
Definition initial : FetchState := mkState (VStr EmptyString) false VNull.

Definition endpoint : string :=
  "https://sv443.net/jokeapi/v2/joke/Programming?type=single".

(** [fetchJoke], against a network that answers the request with [net]. *)
Definition fetchJoke (net : settled Response) : M unit :=
  setIsLoading true ;;
  setError VNull ;;
  try_catch_finally
    (promise <- fetch net endpoint ;;
     response <- await promise ;;
     (if negb (ok response)
      then throw (mkError "Error"
                    ("HTTP error! status: " ++ string_of_N (status response)))
      else ret tt) ;;
     data <- await (json response) ;;
     match get_property data "joke" with
     | inl e => throw e
     | inr v => setJoke v
     end)
    (fun err =>
       setError (VStr (message err)) ;;
       console_error "Error fetching joke:" err)
    (setIsLoading false).

Definition clearJoke : M unit :=
  setJoke (VStr EmptyString) ;;
  setError VNull.

End useJoke.

(** Running one invocation from the cells [s], with an empty trace, the
    event loop resuming it [n] times. *)
Definition run {A} (m : M A) (n : nat) (s : FetchState)
  : completion A * World :=
  m (mkWorld s [] n).

(** The cells an invocation leaves. *)
Definition after {A} (m : M A) (n : nat) (s : FetchState) : FetchState :=
  cells (snd (run m n s)).

(** The cells once [fetchJoke] has been resumed after both of its awaits. *)
Definition settle (net : settled Response) (s : FetchState) : FetchState :=
  after (useJoke.fetchJoke net) 2 s.

(** The effects of an invocation that stores the joke [v], and of one that
    catches [e]. *)
Definition success_trace (v : value) : list Effect :=
  [ SetIsLoading true; SetError VNull; HttpGet useJoke.endpoint;
    SetJoke v; SetIsLoading false ].

Definition failure_trace (e : Error) : list Effect :=
  [ SetIsLoading true; SetError VNull; HttpGet useJoke.endpoint;
    SetError (VStr (message e)); ConsoleError "Error fetching joke:" e;
    SetIsLoading false ].

(** The error thrown at a response whose [ok] is false. *)
Definition http_error (r : Response) : Error :=
  mkError "Error" ("HTTP error! status: " ++ string_of_N (status r)).

(** [haystack.includes(needle)]. *)
Fixpoint includes (needle haystack : string) : bool :=
  String.prefix needle haystack ||
  match haystack with
  | EmptyString => false
  | String _ rest => includes needle rest
  end.

(** The ways an attempt fails, that is, the ways the [try] block throws: the
    request itself is rejected, the response has a status outside 200..299,
    its body does not parse, or reading the joke field of the parsed body
    throws. *)
Inductive Failure : settled Response -> Prop :=
| TransportFailure (e : Error) : Failure (Rejected e)
| HttpFailure (r : Response) : ok r = false -> Failure (Fulfilled r)
| ParseFailure (r : Response) (e : Error) :
    ok r = true -> json r = Rejected e -> Failure (Fulfilled r)
| FieldReadFailure (r : Response) (data : value) (e : Error) :
    ok r = true -> json r = Fulfilled data ->
    get_property data "joke" = inl e -> Failure (Fulfilled r).

(** A parsed body has the joke field when it is an object with a member
    named [joke]. *)
Definition has_joke_field (data : value) : bool :=
  match data with
  | VObj members =>
      match lookup_member "joke" members with Some _ => true | None => false end
  | _ => false
  end.

(** [null] and [undefined], the values whose properties cannot be read. *)
Definition is_nullish (v : value) : bool :=
  match v with
  | VNull | VUndefined => true
  | _ => false
  end.

(** ** The components *)

Inductive Callback : Type := FetchJoke | ClearJoke.

(** What a component returns.  [Expr v] is a JavaScript value in child
    position, [{v}]: React shows nothing for a boolean, [null] or
    [undefined]. *)
Inductive Node : Type :=
| Elem (tag className : string) (children : list Node)
| ButtonElem (onClick : Callback) (disabled : bool)
    (aria_label className : string) (children : list Node)
| Txt (s : string)
| Expr (v : value).

(** [a && b] on values, and with a JSX element on the right. *)
Definition and_value (a b : value) : value := if truthy a then b else a.
Definition and_node (a : value) (b : Node) : Node :=
  if truthy a then b else Expr a.

Record ButtonProps : Type := mkButtonProps {
  onGenerateJoke : Callback;
  btn_isLoading : bool;
  btn_disabled : bool
}.

Definition Button (props : ButtonProps) : Node :=
  ButtonElem (onGenerateJoke props)
    (btn_disabled props || btn_isLoading props)
    (if btn_isLoading props then "Loading joke..." else "Generate a new joke")
    "joke-button"
    [Txt (if btn_isLoading props
          then "Loading..." else "Click to generate a joke")].

(** The [Joke] component, rendered from the hook's cells ([disabled] is not
    passed to [Button] and takes its default, [false]). *)
Definition Joke (s : FetchState) : Node :=
  Elem "div" "joke"
    [ Button (mkButtonProps FetchJoke (isLoading s) false);
      and_node (error s)
        (Elem "p" "error" [Txt "Error: "; Expr (error s)]);
      and_node (VBool (isLoading s))
        (Elem "p" "loading" [Txt "Loading joke..."]);
      and_node (and_value (joke s) (VBool (negb (isLoading s))))
        (Elem "p" "joke-text" [Expr (joke s)]) ].

(** The class names of the paragraphs among the children of a node. *)
Definition paragraph_class (n : Node) : option string :=
  match n with
  | Elem "p" cls _ => Some cls
  | _ => None
  end.

Definition paragraphs (n : Node) : list string :=
  match n with
  | Elem _ _ children | ButtonElem _ _ _ _ children =>
      flat_map (fun c => match paragraph_class c with
                         | Some cls => [cls]
                         | None => []
                         end) children
  | _ => []
  end.

Definition shows (cls : string) (n : Node) : bool :=
  existsb (String.eqb cls) (paragraphs n).

(** [App], rendered with the cells of the hook instance that its [Joke]
    child owns.  The header and the main element carry no class. *)
Definition App (s : FetchState) : Node :=
  Elem "div" "App"
    [ Elem "header" EmptyString
        [Elem "h1" EmptyString
           [Txt "Joke Generator Using React and Joke API"]];
      Elem "main" EmptyString [Joke s] ].

(** The buttons of a rendered tree, in document order: what a click on
    each one calls, and whether it is disabled. *)
Fixpoint buttons (n : Node) : list (Callback * bool) :=
  match n with
  | Elem _ _ children => flat_map buttons children
  | ButtonElem onClick disabled _ _ children =>
      (onClick, disabled) :: flat_map buttons children
  | Txt _ | Expr _ => []
  end.

(** ** Effects as writes *)

(** What an effect does to the cells: a setter overwrites its cell, a
    request or a log entry touches none. *)
Definition apply_effect (e : Effect) (s : FetchState) : FetchState :=
  match e with
  | SetJoke v => mkState v (isLoading s) (error s)
  | SetIsLoading b => mkState (joke s) b (error s)
  | SetError v => mkState (joke s) (isLoading s) v
  | HttpGet _ | ConsoleError _ _ => s
  end.

Definition replay (t : list Effect) (s : FetchState) : FetchState :=
  fold_left (fun acc e => apply_effect e acc) t s.

(** The URLs requested and the entries logged in a trace. *)
Definition requests (t : list Effect) : list string :=
  flat_map (fun e => match e with HttpGet url => [url] | _ => [] end) t.

Definition logged (t : list Effect) : list (string * Error) :=
  flat_map (fun e => match e with
                     | ConsoleError label err => [(label, err)]
                     | _ => []
                     end) t.

(** The effects of [fetchJoke] up to its suspension or settlement after [k]
    resumptions; those of its synchronous part; and those it performs from
    then on until it settles. *)
Definition effects_until (net : settled Response) (k : nat) : list Effect :=
  trace (snd (run (useJoke.fetchJoke net) k useJoke.initial)).

Definition start_effects (net : settled Response) : list Effect :=
  effects_until net 0.

Definition finish_effects (net : settled Response) : list Effect :=
  skipn (length (start_effects net)) (effects_until net 2).

(** ** Sessions: calls and settlements in any order *)

(** The cells as the page shows them, and the answers the network will give
    to the requests that have not settled yet, oldest first. *)
Record Session : Type := mkSession {
  view : FetchState;
  in_flight : list (settled Response)
}.

(** What can happen on the event loop: a caller invokes [fetchJoke] (the
    network will answer that request with [net]) or [clearJoke]; the [i]-th
    request in flight settles; the user clicks the button of the page. *)
Inductive Event : Type :=
| CallFetch (net : settled Response)
| CallClear
| Arrive (i : nat)
| Click (net : settled Response).

Definition remove_nth {A} (i : nat) (l : list A) : list A :=
  (firstn i l ++ skipn (S i) l)%list.

Definition call_fetch (net : settled Response) (ses : Session) : Session :=
  mkSession (after (useJoke.fetchJoke net) 0 (view ses))
    (in_flight ses ++ [net]).

Definition call_clear (ses : Session) : Session :=
  mkSession (after useJoke.clearJoke 0 (view ses)) (in_flight ses).

Definition invoke (cb : Callback) (net : settled Response) (ses : Session)
  : Session :=
  match cb with
  | FetchJoke => call_fetch net ses
  | ClearJoke => call_clear ses
  end.

(** A click reaches the handler of the first button of the page unless
    that button is disabled. *)
Definition step (e : Event) (ses : Session) : Session :=
  match e with
  | CallFetch net => call_fetch net ses
  | CallClear => call_clear ses
  | Arrive i =>
      match nth_error (in_flight ses) i with
      | Some net =>
          mkSession (replay (finish_effects net) (view ses))
            (remove_nth i (in_flight ses))
      | None => ses
      end
  | Click net =>
      match buttons (App (view ses)) with
      | (cb, false) :: _ => invoke cb net ses
      | _ => ses
      end
  end.

Definition run_events (events : list Event) (ses : Session) : Session :=
  fold_left (fun acc e => step e acc) events ses.

(** The events a user of the page can cause: clicks and settlements. *)
Definition page_event (e : Event) : bool :=
  match e with
  | Click _ | Arrive _ => true
  | CallFetch _ | CallClear => false
  end.

(** The loading flag tells whether a request is in flight, and there is at
    most one. *)
Definition loading_matches_flight (ses : Session) : Prop :=
  (in_flight ses = [] /\ isLoading (view ses) = false) \/
  (exists net, in_flight ses = [net] /\ isLoading (view ses) = true).

(** ** Sample inputs *)

Definition dark_mode_joke : string :=
  "Why do programmers prefer dark mode? Because light attracts bugs.".

(** Scenario A: status 200, body [{"joke": "Why do programmers ..."}]. *)
Definition scenario_A : Response :=
  mkResponse 200 (Fulfilled (VObj [("joke", VStr dark_mode_joke)])).

(** Scenario B: status 500 with an empty body. *)
Definition scenario_B : Response :=
  mkResponse 500
    (Rejected (mkError "SyntaxError" "Unexpected end of JSON input")).

(** Scenario C: status 200 with the body [not json]. *)
Definition scenario_C : Response :=
  mkResponse 200
    (Rejected (mkError "SyntaxError"
       "Unexpected token o in JSON at position 1")).

(** Status 200 and a JSON body without the joke field. *)
Definition no_joke_body : value :=
  VObj [("error", VBool true); ("message", VStr "No matching joke found")].
Definition no_joke_response : Response :=
  mkResponse 200 (Fulfilled no_joke_body).

(** Cells left by an earlier failure while another request is shown as
    running. *)
Definition dirty : FetchState :=
  mkState (VStr "an old joke") true (VStr "Failed to fetch").

(** * Properties *)

(** ** Strings and status codes *)

Lemma prefix_refl (s : string) : String.prefix s s = true.
Proof.
  induction s as [|c s IH]; cbn; [reflexivity|].
  destruct (Ascii.ascii_dec c c); [exact IH | congruence].
Qed.

Lemma includes_suffix (needle before : string) :
  includes needle (before ++ needle) = true.
Proof.
  induction before as [|c before IH]; cbn.
  - destruct needle as [|a needle]; [reflexivity|].
    unfold includes; fold includes. now rewrite prefix_refl.
  - rewrite IH. apply orb_true_r.
Qed.

(** [string_of_N] writes the number in decimal: reading the digits back
    gives the number. *)
Lemma string_of_N_decimal (n : N) :
  option_map N.of_uint (NilEmpty.uint_of_string (string_of_N n)) = Some n.
Proof.
  unfold string_of_N. rewrite NilEmpty.usu. cbn.
  now rewrite DecimalN.Unsigned.of_to.
Qed.

Example string_of_N_500 : string_of_N 500 = "500".
Proof. reflexivity. Qed.

Example string_of_N_0 : string_of_N 0 = "0".
Proof. reflexivity. Qed.

Lemma status_ge_400_not_ok (r : Response) :
  (400 <= status r)%N -> ok r = false.
Proof.
  intros H. unfold ok.
  destruct (N.leb_spec (status r) 299) as [Hle|_]; [lia|].
  apply andb_false_r.
Qed.

(** ** What one invocation of [fetchJoke] does, outcome by outcome *)

Section FetchRuns.

Variables (s : FetchState) (n : nat).

Ltac step_fetch := unfold run, useJoke.fetchJoke, try_catch_finally, bind; cbn.

Lemma fetchJoke_rejected (e : Error) :
  run (useJoke.fetchJoke (Rejected e)) (2 + n) s =
  (Normal tt,
   mkWorld (mkState (joke s) false (VStr (message e)))
     (failure_trace e) (S n)).
Proof. reflexivity. Qed.

Lemma fetchJoke_not_ok (r : Response) :
  ok r = false ->
  run (useJoke.fetchJoke (Fulfilled r)) (2 + n) s =
  (Normal tt,
   mkWorld (mkState (joke s) false (VStr (message (http_error r))))
     (failure_trace (http_error r)) (S n)).
Proof. intros Hok. step_fetch. rewrite Hok. reflexivity. Qed.

Lemma fetchJoke_json_rejected (r : Response) (e : Error) :
  ok r = true -> json r = Rejected e ->
  run (useJoke.fetchJoke (Fulfilled r)) (2 + n) s =
  (Normal tt,
   mkWorld (mkState (joke s) false (VStr (message e))) (failure_trace e) n).
Proof. intros Hok Hjson. step_fetch. rewrite Hok, Hjson. reflexivity. Qed.

Lemma fetchJoke_property_throws (r : Response) (data : value) (e : Error) :
  ok r = true -> json r = Fulfilled data -> get_property data "joke" = inl e ->
  run (useJoke.fetchJoke (Fulfilled r)) (2 + n) s =
  (Normal tt,
   mkWorld (mkState (joke s) false (VStr (message e))) (failure_trace e) n).
Proof.
  intros Hok Hjson Hget. step_fetch. rewrite Hok, Hjson. cbn.
  rewrite Hget. reflexivity.
Qed.

Lemma fetchJoke_stores (r : Response) (data v : value) :
  ok r = true -> json r = Fulfilled data -> get_property data "joke" = inr v ->
  run (useJoke.fetchJoke (Fulfilled r)) (2 + n) s =
  (Normal tt, mkWorld (mkState v false VNull) (success_trace v) n).
Proof.
  intros Hok Hjson Hget. step_fetch. rewrite Hok, Hjson. cbn.
  rewrite Hget. reflexivity.
Qed.

(** [Failure] is exactly the set of answers on which the [catch] block
    runs. *)
Lemma Failure_iff_caught (net : settled Response) :
  Failure net <->
  exists e, trace (snd (run (useJoke.fetchJoke net) (2 + n) s))
            = failure_trace e.
Proof.
  split.
  - intros [e | r Hok | r e Hok Hjson | r data e Hok Hjson Hget].
    + exists e. now rewrite fetchJoke_rejected.
    + exists (http_error r). now rewrite fetchJoke_not_ok.
    + exists e. now rewrite (fetchJoke_json_rejected r e).
    + exists e. now rewrite (fetchJoke_property_throws r data e).
  - intros [e He]. destruct net as [r | e']; [|constructor].
    destruct (ok r) eqn:Hok; [|now constructor].
    destruct (json r) as [data | e'] eqn:Hjson;
      [|now apply (ParseFailure r e')].
    destruct (get_property data "joke") as [e' | v] eqn:Hget;
      [now apply (FieldReadFailure r data e')|].
    rewrite (fetchJoke_stores r data v Hok Hjson Hget) in He.
    discriminate He.
Qed.

End FetchRuns.

(** ** The hook *)

Lemma ok_2xx (r : Response) :
  (200 <= status r)%N -> (status r <= 299)%N -> ok r = true.
Proof.
  intros Hlo Hhi. unfold ok.
  apply andb_true_intro; split; now apply N.leb_le.
Qed.

(** C7. After construction, before any operation is invoked, the state is
    exactly: content the empty string, isLoading false, error null. *)
Theorem useJoke_initial_state :
  useJoke.initial = mkState (VStr EmptyString) false VNull /\
  joke useJoke.initial = VStr EmptyString /\
  isLoading useJoke.initial = false /\
  error useJoke.initial = VNull.
Proof. repeat split. Qed.

(** C6. Up to its first suspension, that is before the network call
    settles, an invocation of fetch() has set isLoading to true and error to
    null, has sent the request, and has left content at its prior value,
    whatever the prior state and whatever the network will answer. *)
Theorem fetchJoke_synchronous_part (net : settled Response) (s : FetchState) :
  run (useJoke.fetchJoke net) 0 s =
  (Pending,
   mkWorld (mkState (joke s) true VNull)
     [SetIsLoading true; SetError VNull; HttpGet useJoke.endpoint] 0).
Proof. reflexivity. Qed.

(** C1. For every response with a 2xx status whose body parses to an object
    whose joke member is a string (in particular a non-empty one), once
    fetch() settles the state is content = that string, error = null,
    isLoading = false, regardless of the state before the call; the
    invocation completes normally. *)
Theorem fetchJoke_success (s : FetchState) (n : nat) (r : Response)
    (members : list (string * value)) (text : string) :
  (200 <= status r)%N -> (status r <= 299)%N ->
  json r = Fulfilled (VObj members) ->
  lookup_member "joke" members = Some (VStr text) ->
  fst (run (useJoke.fetchJoke (Fulfilled r)) (2 + n) s) = Normal tt /\
  after (useJoke.fetchJoke (Fulfilled r)) (2 + n) s =
    mkState (VStr text) false VNull.
Proof.
  intros Hlo Hhi Hjson Hjoke. unfold after.
  rewrite (fetchJoke_stores s n r (VObj members) (VStr text)).
  - split; reflexivity.
  - now apply ok_2xx.
  - exact Hjson.
  - cbn. now rewrite Hjoke.
Qed.

(** Scenario A, from cells that hold an old joke, an old error and a set
    loading flag. *)
Lemma fetchJoke_success_witness :
  fst (run (useJoke.fetchJoke (Fulfilled scenario_A)) 2 dirty) = Normal tt /\
  after (useJoke.fetchJoke (Fulfilled scenario_A)) 2 dirty =
    mkState (VStr dark_mode_joke) false VNull.
Proof.
  apply (fetchJoke_success dirty 0 scenario_A
           [("joke", VStr dark_mode_joke)] dark_mode_joke).
  - cbn. lia.
  - cbn. lia.
  - reflexivity.
  - reflexivity.
Defined.

(** C2. For every failed attempt (the request is rejected, the response has
    a non-success status, the body does not parse, or the joke field cannot
    be read from the parsed body) once fetch() settles error holds a message
    and so is not null, content is what it was before the call and isLoading
    is false; when the failure is a non-success status, the message includes
    the decimal status code. *)
Theorem fetchJoke_failure (s : FetchState) (n : nat) (net : settled Response) :
  Failure net ->
  let s' := after (useJoke.fetchJoke net) (2 + n) s in
  (exists msg, error s' = VStr msg /\
     forall r, net = Fulfilled r -> ok r = false ->
               includes (string_of_N (status r)) msg = true) /\
  error s' <> VNull /\
  joke s' = joke s /\
  isLoading s' = false.
Proof.
  intros Hfail; unfold after;
    destruct Hfail as [e | r Hok | r e Hok Hjson | r data e Hok Hjson Hget].
  - rewrite fetchJoke_rejected; cbn. repeat split; try discriminate.
    exists (message e); split; [reflexivity | discriminate].
  - rewrite (fetchJoke_not_ok s n r Hok); cbn. repeat split; try discriminate.
    eexists; split; [reflexivity|].
    intros r' Hr' _. injection Hr' as <-.
    exact (includes_suffix (string_of_N (status r)) "HTTP error! status: ").
  - rewrite (fetchJoke_json_rejected s n r e Hok Hjson); cbn.
    repeat split; try discriminate.
    exists (message e); split; [reflexivity|].
    intros r' Hr' Hok'. injection Hr' as <-. congruence.
  - rewrite (fetchJoke_property_throws s n r data e Hok Hjson Hget); cbn.
    repeat split; try discriminate.
    exists (message e); split; [reflexivity|].
    intros r' Hr' Hok'. injection Hr' as <-. congruence.
Qed.

(** Scenario B: a response with status 500, from cells holding an old
    joke. *)
Lemma fetchJoke_failure_witness :
  Failure (Fulfilled scenario_B) /\
  let s' := after (useJoke.fetchJoke (Fulfilled scenario_B)) 2 dirty in
  (exists msg, error s' = VStr msg /\
     forall r, Fulfilled scenario_B = Fulfilled r -> ok r = false ->
               includes (string_of_N (status r)) msg = true) /\
  error s' <> VNull /\
  joke s' = joke dirty /\
  isLoading s' = false.
Proof.
  split.
  - apply HttpFailure. reflexivity.
  - apply (fetchJoke_failure dirty 0 (Fulfilled scenario_B)).
    apply HttpFailure. reflexivity.
Defined.

Example scenario_B_settles :
  settle (Fulfilled scenario_B) dirty =
  mkState (VStr "an old joke") false (VStr "HTTP error! status: 500").
Proof. reflexivity. Qed.

Example scenario_C_settles :
  settle (Fulfilled scenario_C) dirty =
  mkState (VStr "an old joke") false
    (VStr "Unexpected token o in JSON at position 1").
Proof. reflexivity. Qed.

(** C3. Every invocation of fetch() that has been resumed after its awaits
    has settled, completing normally, whatever the network answered: a
    rejected request, any status, a body that does not parse, any parsed
    body.  isLoading is then false, and setting it to false is the last
    effect of the invocation. *)
Theorem fetchJoke_finally_clears_loading
    (s : FetchState) (n : nat) (net : settled Response) :
  fst (run (useJoke.fetchJoke net) (2 + n) s) = Normal tt /\
  isLoading (after (useJoke.fetchJoke net) (2 + n) s) = false /\
  exists earlier : list Effect,
    trace (snd (run (useJoke.fetchJoke net) (2 + n) s)) =
    (earlier ++ [SetIsLoading false])%list.
Proof.
  unfold after.
  destruct net as [r | e].
  - destruct (ok r) eqn:Hok.
    + destruct (json r) as [data | e] eqn:Hjson.
      * destruct (get_property data "joke") as [e | v] eqn:Hget.
        -- rewrite (fetchJoke_property_throws s n r data e Hok Hjson Hget).
           repeat split. now exists (removelast (failure_trace e)).
        -- rewrite (fetchJoke_stores s n r data v Hok Hjson Hget).
           repeat split. now exists (removelast (success_trace v)).
      * rewrite (fetchJoke_json_rejected s n r e Hok Hjson).
        repeat split. now exists (removelast (failure_trace e)).
    + rewrite (fetchJoke_not_ok s n r Hok).
      repeat split. now exists (removelast (failure_trace (http_error r))).
  - rewrite fetchJoke_rejected.
    repeat split. now exists (removelast (failure_trace e)).
Qed.

(** C10. For every response with a non-success status code n, once fetch()
    settles the error message is exactly the text [HTTP error! status: ]
    followed by n written in decimal (reading those digits back gives n). *)
Theorem fetchJoke_http_error_message
    (s : FetchState) (n : nat) (r : Response) :
  ok r = false ->
  error (after (useJoke.fetchJoke (Fulfilled r)) (2 + n) s) =
    VStr ("HTTP error! status: " ++ string_of_N (status r)) /\
  option_map N.of_uint (NilEmpty.uint_of_string (string_of_N (status r))) =
    Some (status r).
Proof.
  intros Hok. split.
  - unfold after. now rewrite (fetchJoke_not_ok s n r Hok).
  - apply string_of_N_decimal.
Qed.

Lemma fetchJoke_http_error_message_witness :
  error (after (useJoke.fetchJoke (Fulfilled scenario_B)) 2 useJoke.initial) =
    VStr ("HTTP error! status: " ++ string_of_N 500) /\
  option_map N.of_uint (NilEmpty.uint_of_string (string_of_N 500)) =
    Some 500%N.
Proof.
  apply (fetchJoke_http_error_message useJoke.initial 0 scenario_B).
  reflexivity.
Defined.

Example status_404_message :
  error (settle (Fulfilled (mkResponse 404 (Fulfilled VNull))) useJoke.initial)
  = VStr "HTTP error! status: 404".
Proof. reflexivity. Qed.

(** C8. From every prior state clear() sets content to the empty string and
    error to null and leaves isLoading as it was; it completes without
    suspending, and these two state updates are its only effects: no
    request is sent and nothing is logged. *)
Theorem clearJoke_effect (s : FetchState) (n : nat) :
  run useJoke.clearJoke n s =
  (Normal tt,
   mkWorld (mkState (VStr EmptyString) (isLoading s) VNull)
     [SetJoke (VStr EmptyString); SetError VNull] n).
Proof. reflexivity. Qed.

(** C9. clear() is idempotent: from every state, calling it a second time,
    at once or in a later invocation, leaves the same state as calling it
    once. *)
Theorem clearJoke_idempotent (s : FetchState) (n m : nat) :
  after useJoke.clearJoke m (after useJoke.clearJoke n s) =
    after useJoke.clearJoke n s /\
  after (useJoke.clearJoke ;; useJoke.clearJoke) n s =
    after useJoke.clearJoke n s.
Proof. split; reflexivity. Qed.

(** C4, as the claim states it, fails: a 200 response whose JSON body has no
    joke member is not treated as a failure.  From the initial state the
    invocation ends with error still null and content undefined. *)
Lemma missing_field_goes_unreported :
  ok no_joke_response = true /\
  json no_joke_response = Fulfilled no_joke_body /\
  has_joke_field no_joke_body = false /\
  run (useJoke.fetchJoke (Fulfilled no_joke_response)) 2 useJoke.initial =
    (Normal tt,
     mkWorld (mkState VUndefined false VNull) (success_trace VUndefined) 0) /\
  error (settle (Fulfilled no_joke_response) useJoke.initial) = VNull.
Proof. repeat split. Qed.

(** C4, amended. For every 2xx response whose body is valid JSON without the
    joke field, fetch() settles normally (no exception leaves it) with
    isLoading false.  When the body is any value other than null, nothing is
    reported: error stays null and content becomes undefined.  When the body
    is null, reading the field throws; that error is caught, its message is
    stored in error and content is unchanged. *)
Theorem fetchJoke_missing_field
    (s : FetchState) (n : nat) (r : Response) (data : value) :
  (200 <= status r)%N -> (status r <= 299)%N ->
  json r = Fulfilled data ->
  has_joke_field data = false ->
  let s' := after (useJoke.fetchJoke (Fulfilled r)) (2 + n) s in
  fst (run (useJoke.fetchJoke (Fulfilled r)) (2 + n) s) = Normal tt /\
  isLoading s' = false /\
  if is_nullish data
  then joke s' = joke s /\ exists msg, error s' = VStr msg
  else joke s' = VUndefined /\ error s' = VNull.
Proof.
  intros Hlo Hhi Hjson Hfield.
  pose proof (ok_2xx r Hlo Hhi) as Hok. unfold after.
  assert (Hget : get_property data "joke" =
                 if is_nullish data
                 then get_property data "joke" else inr VUndefined).
  { destruct data; try reflexivity.
    cbn in Hfield |- *.
    now destruct (lookup_member "joke" members). }
  destruct (is_nullish data) eqn:Hnull.
  - assert (Hthrows : exists e, get_property data "joke" = inl e)
      by (destruct data; try discriminate; now eexists).
    destruct Hthrows as [e He].
    rewrite (fetchJoke_property_throws s n r data e Hok Hjson He).
    repeat split. now exists (message e).
  - rewrite (fetchJoke_stores s n r data VUndefined Hok Hjson Hget).
    now repeat split.
Qed.

Lemma fetchJoke_missing_field_witness :
  let s' := after (useJoke.fetchJoke (Fulfilled no_joke_response)) 2 dirty in
  fst (run (useJoke.fetchJoke (Fulfilled no_joke_response)) 2 dirty)
    = Normal tt /\
  isLoading s' = false /\
  if is_nullish no_joke_body
  then joke s' = joke dirty /\ exists msg, error s' = VStr msg
  else joke s' = VUndefined /\ error s' = VNull.
Proof.
  apply (fetchJoke_missing_field dirty 0 no_joke_response no_joke_body).
  - cbn. lia.
  - cbn. lia.
  - reflexivity.
  - reflexivity.
Defined.

Example null_body_is_caught :
  settle (Fulfilled (mkResponse 200 (Fulfilled VNull))) dirty =
  mkState (VStr "an old joke") false
    (VStr "Cannot read properties of null (reading 'joke')").
Proof. reflexivity. Qed.

(** ** The display *)

(** C5, as the claim states it, fails: a successful fetch followed by a
    failed one leaves the old joke next to the new error, and the component
    then renders both the error message and the joke text. *)
Lemma error_and_stale_joke_both_shown :
  let s := settle (Fulfilled scenario_B)
             (settle (Fulfilled scenario_A) useJoke.initial) in
  s = mkState (VStr dark_mode_joke) false (VStr "HTTP error! status: 500") /\
  paragraphs (Joke s) = ["error"; "joke-text"] /\
  shows "error" (Joke s) = true /\
  shows "joke-text" (Joke s) = true.
Proof. repeat split. Qed.

(** C5, amended. For every state the component renders the error message
    exactly when error is truthy (a non-empty message), the loading
    indicator exactly when isLoading is true, and the joke text exactly when
    content is truthy (non-empty) and isLoading is false.  The loading
    indicator and the joke text are never rendered together, and when error
    is null or empty at most one of the three is rendered; with an error, at
    most two. *)
Theorem Joke_outputs (s : FetchState) :
  shows "error" (Joke s) = truthy (error s) /\
  shows "loading" (Joke s) = isLoading s /\
  shows "joke-text" (Joke s) = truthy (joke s) && negb (isLoading s) /\
  shows "loading" (Joke s) && shows "joke-text" (Joke s) = false /\
  (length (paragraphs (Joke s)) <= if truthy (error s) then 2 else 1)%nat.
Proof.
  unfold Joke, shows, paragraphs, and_node, and_value.
  destruct (truthy (error s)), (isLoading s), (truthy (joke s)) eqn:Hjoke;
    cbn; rewrite ?Hjoke; cbn; repeat split; lia.
Qed.

(** * Further properties *)

(** ** One invocation of [fetchJoke], whatever the answer *)

(** The answer alone decides the outcome: either some error is caught,
    whatever the cells were, or some value is stored, whatever they were. *)
Lemma fetchJoke_cases (net : settled Response) :
  (exists e, Failure net /\
     forall s n, exists m,
       run (useJoke.fetchJoke net) (2 + n) s =
       (Normal tt,
        mkWorld (mkState (joke s) false (VStr (message e)))
          (failure_trace e) m)) \/
  (exists v, ~ Failure net /\
     forall s n,
       run (useJoke.fetchJoke net) (2 + n) s =
       (Normal tt, mkWorld (mkState v false VNull) (success_trace v) n)).
Proof.
  destruct net as [r | e].
  - destruct (ok r) eqn:Hok.
    + destruct (json r) as [data | e] eqn:Hjson.
      * destruct (get_property data "joke") as [e | v] eqn:Hget.
        -- left. exists e. split; [now apply (FieldReadFailure r data e)|].
           intros s n. exists n. now apply fetchJoke_property_throws with data.
        -- right. exists v. split.
           ++ intros HF.
              apply (Failure_iff_caught useJoke.initial 0) in HF.
              destruct HF as [e He].
              rewrite (fetchJoke_stores _ _ r data v Hok Hjson Hget) in He.
              discriminate He.
           ++ intros s n. now apply fetchJoke_stores with data.
      * left. exists e. split; [now apply (ParseFailure r e)|].
        intros s n. exists n. now apply fetchJoke_json_rejected.
    + left. exists (http_error r). split; [now apply HttpFailure|].
      intros s n. exists (S n). now apply fetchJoke_not_ok.
  - left. exists e. split; [apply TransportFailure|].
    intros s n. exists (S n). apply fetchJoke_rejected.
Qed.

(** After one resumption the invocation is either still suspended, with
    nothing done since its synchronous part, or it has settled as it would
    have with two. *)
Lemma fetchJoke_resumed_once (net : settled Response) (s : FetchState) :
  run (useJoke.fetchJoke net) 1 s =
    (Pending,
     mkWorld (mkState (joke s) true VNull)
       [SetIsLoading true; SetError VNull; HttpGet useJoke.endpoint] 0) \/
  run (useJoke.fetchJoke net) 1 s =
    (fst (run (useJoke.fetchJoke net) 2 s),
     mkWorld (after (useJoke.fetchJoke net) 2 s)
       (trace (snd (run (useJoke.fetchJoke net) 2 s))) 0).
Proof.
  destruct net as [r | e]; [|right; reflexivity].
  destruct (ok r) eqn:Hok.
  - left. unfold run, useJoke.fetchJoke, try_catch_finally, bind; cbn.
    rewrite Hok. reflexivity.
  - right. unfold after, run, useJoke.fetchJoke, try_catch_finally, bind; cbn.
    rewrite Hok. reflexivity.
Qed.

(** X1. Once fetch() settles, exactly one of content and error reflects the
    attempt, and which one, and with what value, is decided by the network
    answer alone: either content is a new value, error is null and the
    state owes nothing to the prior state, or error is a message and content
    is the prior content.  isLoading is false in both cases. *)
Theorem fetchJoke_content_or_error (net : settled Response) :
  (exists v, forall s n,
     after (useJoke.fetchJoke net) (2 + n) s = mkState v false VNull) \/
  (exists msg, forall s n,
     after (useJoke.fetchJoke net) (2 + n) s
     = mkState (joke s) false (VStr msg)).
Proof.
  destruct (fetchJoke_cases net) as [[e [_ Hrun]] | [v [_ Hrun]]].
  - right. exists (message e). intros s n. unfold after.
    destruct (Hrun s n) as [m ->]. reflexivity.
  - left. exists v. intros s n. unfold after. now rewrite Hrun.
Qed.

(** X2. The joke field is stored without any check of its type: for every
    2xx response whose parsed body is not null, content becomes whatever
    reading the joke property gives (a number, an object, undefined when the
    member is missing or the body is not an object) and error is null. *)
Theorem fetchJoke_stores_unvalidated
    (s : FetchState) (n : nat) (r : Response) (data : value) :
  ok r = true -> json r = Fulfilled data -> is_nullish data = false ->
  exists v,
    get_property data "joke" = inr v /\
    (has_joke_field data = false -> v = VUndefined) /\
    after (useJoke.fetchJoke (Fulfilled r)) (2 + n) s = mkState v false VNull.
Proof.
  intros Hok Hjson Hnull.
  assert (Hget : exists v, get_property data "joke" = inr v /\
                           (has_joke_field data = false -> v = VUndefined)).
  { destruct data; try discriminate; cbn;
      try (now exists VUndefined).
    destruct (lookup_member "joke" members) as [x|].
    - exists x. split; [reflexivity | discriminate].
    - now exists VUndefined. }
  destruct Hget as [v [Hget Hmissing]]. exists v. repeat split; trivial.
  unfold after. now rewrite (fetchJoke_stores s n r data v Hok Hjson Hget).
Qed.

Lemma fetchJoke_stores_unvalidated_witness :
  exists v,
    get_property (VObj [("joke", VNum 42%float)]) "joke" = inr v /\
    (has_joke_field (VObj [("joke", VNum 42%float)]) = false ->
     v = VUndefined) /\
    after (useJoke.fetchJoke
             (Fulfilled (mkResponse 200
                (Fulfilled (VObj [("joke", VNum 42%float)]))))) 2 dirty
    = mkState v false VNull.
Proof.
  apply (fetchJoke_stores_unvalidated dirty 0
           (mkResponse 200 (Fulfilled (VObj [("joke", VNum 42%float)])))
           (VObj [("joke", VNum 42%float)])); reflexivity.
Defined.

(** X3. An invocation of fetch() sends exactly one request, to the fixed
    endpoint, however far it has run and however it ends: there is no retry
    after a failure and no second request. *)
Theorem fetchJoke_one_request
    (net : settled Response) (k : nat) (s : FetchState) :
  requests (trace (snd (run (useJoke.fetchJoke net) k s)))
  = [useJoke.endpoint].
Proof.
  assert (Hsettled : forall n,
    requests (trace (snd (run (useJoke.fetchJoke net) (2 + n) s)))
    = [useJoke.endpoint]).
  { intros n.
    destruct (fetchJoke_cases net) as [[e [_ Hrun]] | [v [_ Hrun]]].
    - destruct (Hrun s n) as [m ->]. reflexivity.
    - rewrite Hrun. reflexivity. }
  destruct k as [|[|n]].
  - reflexivity.
  - destruct (fetchJoke_resumed_once net s) as [-> | ->]; [reflexivity|].
    apply (Hsettled 0).
  - apply Hsettled.
Qed.

(** X4. console.error is called exactly when the attempt fails, and then
    once, with the label and the very error whose message is stored in
    error; an attempt that does not fail logs nothing and leaves error
    null. *)
Theorem fetchJoke_logs_failures
    (net : settled Response) (s : FetchState) (n : nat) :
  let w := snd (run (useJoke.fetchJoke net) (2 + n) s) in
  (exists e, Failure net /\
     logged (trace w) = [("Error fetching joke:", e)] /\
     error (cells w) = VStr (message e)) \/
  (~ Failure net /\ logged (trace w) = [] /\ error (cells w) = VNull).
Proof.
  destruct (fetchJoke_cases net) as [[e [HF Hrun]] | [v [HF Hrun]]].
  - left. exists e. destruct (Hrun s n) as [m ->]. now repeat split.
  - right. rewrite Hrun. now repeat split.
Qed.

(** X5. Receiving the same answer twice in a row changes nothing the second
    time: settling a fetch on the state left by a fetch with the same answer
    gives that state again. *)
Theorem fetchJoke_same_answer_twice (net : settled Response) (s : FetchState) :
  settle net (settle net s) = settle net s.
Proof.
  unfold settle, after.
  destruct (fetchJoke_cases net) as [[e [_ Hrun]] | [v [_ Hrun]]].
  - destruct (Hrun s 0) as [m Hm]. cbn [Nat.add] in Hm. rewrite Hm.
    cbn [snd cells].
    destruct (Hrun (mkState (joke s) false (VStr (message e))) 0) as [m' Hm'].
    cbn [Nat.add] in Hm'. rewrite Hm'. reflexivity.
  - pose proof (Hrun s 0) as Hs. cbn [Nat.add] in Hs. rewrite Hs.
    cbn [snd cells].
    pose proof (Hrun (mkState v false VNull) 0) as Hs'.
    cbn [Nat.add] in Hs'. rewrite Hs'. reflexivity.
Qed.

(** X6. A later attempt wipes the error of an earlier one: the error after
    two fetches in sequence is the error the second alone would leave, so a
    success after a failure leaves error null. *)
Theorem fetchJoke_retry_replaces_error
    (first second : settled Response) (s : FetchState) :
  error (settle second (settle first s)) = error (settle second s) /\
  isLoading (settle second (settle first s)) = false.
Proof.
  unfold settle, after.
  destruct (fetchJoke_cases second) as [[e [_ Hrun]] | [v [_ Hrun]]].
  - destruct (Hrun s 0) as [m Hm]. cbn [Nat.add] in Hm. rewrite Hm.
    destruct (Hrun (cells (snd (run (useJoke.fetchJoke first) 2 s))) 0)
      as [m' Hm'].
    cbn [Nat.add] in Hm'. rewrite Hm'. split; reflexivity.
  - pose proof (Hrun s 0) as Hs. cbn [Nat.add] in Hs. rewrite Hs.
    pose proof (Hrun (cells (snd (run (useJoke.fetchJoke first) 2 s))) 0)
      as Hs'.
    cbn [Nat.add] in Hs'. rewrite Hs'. split; reflexivity.
Qed.

(** X7. clear() after a fetch has settled always brings back the initial
    state, whatever the answer was and whatever the state before. *)
Theorem clearJoke_after_fetch_is_initial
    (net : settled Response) (s : FetchState) (n m : nat) :
  after useJoke.clearJoke m (after (useJoke.fetchJoke net) (2 + n) s)
  = useJoke.initial.
Proof.
  unfold after at 2.
  destruct (fetchJoke_cases net) as [[e [_ Hrun]] | [v [_ Hrun]]].
  - destruct (Hrun s n) as [k ->]. reflexivity.
  - rewrite Hrun. reflexivity.
Qed.

(** X8. The error message identifies the status code: two responses with
    non-success statuses leave the same error only if their statuses are
    equal. *)
Theorem http_error_message_injective
    (r1 r2 : Response) (s1 s2 : FetchState) :
  ok r1 = false -> ok r2 = false ->
  error (settle (Fulfilled r1) s1) = error (settle (Fulfilled r2) s2) ->
  status r1 = status r2.
Proof.
  intros Hok1 Hok2. unfold settle, after.
  pose proof (fetchJoke_not_ok s1 0 r1 Hok1) as H1.
  pose proof (fetchJoke_not_ok s2 0 r2 Hok2) as H2.
  cbn [Nat.add] in H1, H2. rewrite H1, H2. cbn.
  intros Heq. injection Heq as Heq.
  pose proof (string_of_N_decimal (status r1)) as D1.
  pose proof (string_of_N_decimal (status r2)) as D2.
  rewrite Heq in D1. congruence.
Qed.

Lemma http_error_message_injective_witness :
  status scenario_B = status (mkResponse 500 (Fulfilled VNull)).
Proof.
  apply (http_error_message_injective scenario_B
           (mkResponse 500 (Fulfilled VNull)) dirty useJoke.initial);
    reflexivity.
Defined.

(** ** What the page shows *)

Ltac render_cases s :=
  unfold App, Joke, Button, shows, paragraphs, and_node, and_value;
  destruct (truthy (error s)), (isLoading s), (truthy (joke s)) eqn:Hjoke;
  cbn; rewrite ?Hjoke; cbn.

Lemma buttons_App (s : FetchState) :
  buttons (App s) = [(FetchJoke, isLoading s)].
Proof. render_cases s; reflexivity. Qed.

(** X9. In every state the page has exactly one button; it calls fetchJoke
    and is disabled exactly while isLoading is true.  No control of the page
    calls clearJoke. *)
Theorem page_has_one_button (s : FetchState) :
  buttons (App s) = [(FetchJoke, isLoading s)] /\
  buttons (Joke s) = [(FetchJoke, isLoading s)] /\
  ~ In ClearJoke (map fst (buttons (App s))).
Proof.
  assert (HJ : buttons (Joke s) = [(FetchJoke, isLoading s)])
    by (render_cases s; reflexivity).
  assert (HA : buttons (App s) = [(FetchJoke, isLoading s)])
    by (render_cases s; reflexivity).
  repeat split; trivial.
  rewrite HA. cbn. intros [H | []]. discriminate H.
Qed.


(** X11. After a fetch that delivers a non-empty joke string the page shows
    the joke text and nothing else, whatever was shown before, and the
    button is enabled again. *)
Theorem success_display (s : FetchState) (n : nat) (r : Response)
    (members : list (string * value)) (text : string) :
  ok r = true ->
  json r = Fulfilled (VObj members) ->
  lookup_member "joke" members = Some (VStr text) ->
  text <> EmptyString ->
  let s' := after (useJoke.fetchJoke (Fulfilled r)) (2 + n) s in
  paragraphs (Joke s') = ["joke-text"] /\
  buttons (App s') = [(FetchJoke, false)].
Proof.
  intros Hok Hjson Hjoke Htext. unfold after.
  rewrite (fetchJoke_stores s n r (VObj members) (VStr text) Hok Hjson)
    by (cbn; now rewrite Hjoke).
  cbn [snd cells]. split; [|apply buttons_App].
  unfold Joke, paragraphs, and_node, and_value. cbn.
  destruct text as [|c text]; [contradiction|reflexivity].
Qed.

Lemma success_display_witness :
  let s' := after (useJoke.fetchJoke (Fulfilled scenario_A)) 2 dirty in
  paragraphs (Joke s') = ["joke-text"] /\
  buttons (App s') = [(FetchJoke, false)].
Proof.
  apply (success_display dirty 0 scenario_A
           [("joke", VStr dark_mode_joke)] dark_mode_joke);
    try reflexivity.
  discriminate.
Defined.

(** X12. After a response with a non-success status the page shows the
    error message; a joke held from before the call is shown below it, and
    when there was none the error is shown alone. *)
Theorem http_failure_display (s : FetchState) (n : nat) (r : Response) :
  ok r = false ->
  paragraphs (Joke (after (useJoke.fetchJoke (Fulfilled r)) (2 + n) s))
  = if truthy (joke s) then ["error"; "joke-text"] else ["error"].
Proof.
  intros Hok. unfold after. rewrite (fetchJoke_not_ok s n r Hok).
  cbn [snd cells].
  unfold Joke, paragraphs, and_node, and_value. cbn.
  destruct (truthy (joke s)) eqn:Hjoke; cbn; rewrite ?Hjoke; reflexivity.
Qed.

Lemma http_failure_display_witness :
  paragraphs (Joke (after (useJoke.fetchJoke (Fulfilled scenario_B)) 2 dirty))
  = if truthy (joke dirty) then ["error"; "joke-text"] else ["error"].
Proof.
  apply (http_failure_display dirty 0 scenario_B). reflexivity.
Defined.

(** X13. After clear() the page shows neither a joke nor an error: only the
    loading indicator if a request was loading, and otherwise nothing but
    the button. *)
Theorem clear_display (s : FetchState) (n : nat) :
  paragraphs (Joke (after useJoke.clearJoke n s))
  = if isLoading s then ["loading"] else [].
Proof.
  change (after useJoke.clearJoke n s)
    with (mkState (VStr EmptyString) (isLoading s) VNull).
  destruct (isLoading s); reflexivity.
Qed.

(** ** Calls and settlements in any order *)

(** What the invocation does once its answer has arrived, by outcome. *)
Lemma finish_cases (net : settled Response) :
  (exists e, Failure net /\
     finish_effects net =
       [SetError (VStr (message e)); ConsoleError "Error fetching joke:" e;
        SetIsLoading false] /\
     forall s n,
       trace (snd (run (useJoke.fetchJoke net) (2 + n) s)) = failure_trace e /\
       after (useJoke.fetchJoke net) (2 + n) s
       = mkState (joke s) false (VStr (message e))) \/
  (exists v, ~ Failure net /\
     finish_effects net = [SetJoke v; SetIsLoading false] /\
     forall s n,
       trace (snd (run (useJoke.fetchJoke net) (2 + n) s)) = success_trace v /\
       after (useJoke.fetchJoke net) (2 + n) s = mkState v false VNull).
Proof.
  destruct (fetchJoke_cases net) as [[e [HF Hrun]] | [v [HF Hrun]]].
  - left. exists e. repeat split; trivial.
    + unfold finish_effects, effects_until.
      destruct (Hrun useJoke.initial 0) as [m Hm]. cbn [Nat.add] in Hm.
      rewrite Hm. reflexivity.
    + destruct (Hrun s n) as [m ->]. reflexivity.
    + unfold after. destruct (Hrun s n) as [m ->]. reflexivity.
  - right. exists v. repeat split; trivial.
    + unfold finish_effects, effects_until.
      pose proof (Hrun useJoke.initial 0) as Hm. cbn [Nat.add] in Hm.
      rewrite Hm. reflexivity.
    + now rewrite Hrun.
    + unfold after. now rewrite Hrun.
Qed.

Lemma start_is_loading (net : settled Response) (s : FetchState) :
  after (useJoke.fetchJoke net) 0 s = mkState (joke s) true VNull.
Proof. reflexivity. Qed.

(** The arrival of the answer of the oldest request in flight. *)
Lemma step_Arrive_head
    (net : settled Response) (rest : list (settled Response))
    (s : FetchState) :
  step (Arrive 0) (mkSession s (net :: rest))
  = mkSession (replay (finish_effects net) s) rest.
Proof. reflexivity. Qed.

(** X14. The hook never reads its cells: the effects of an invocation of
    fetch() are the same from every state, namely those of its synchronous
    part followed by those done once the answer has arrived, and the cells
    it leaves are these writes applied in order.  So a call followed by the
    arrival of its answer, with nothing in between, leaves what the
    uninterrupted invocation leaves. *)
Theorem fetchJoke_is_its_writes
    (net : settled Response) (s : FetchState) (n : nat) :
  trace (snd (run (useJoke.fetchJoke net) (2 + n) s))
    = (start_effects net ++ finish_effects net)%list /\
  after (useJoke.fetchJoke net) 0 s = replay (start_effects net) s /\
  after (useJoke.fetchJoke net) (2 + n) s
    = replay (finish_effects net) (after (useJoke.fetchJoke net) 0 s) /\
  run_events [CallFetch net; Arrive 0] (mkSession s [])
    = mkSession (after (useJoke.fetchJoke net) (2 + n) s) [].
Proof.
  change (run_events [CallFetch net; Arrive 0] (mkSession s []))
    with (step (Arrive 0)
            (mkSession (after (useJoke.fetchJoke net) 0 s) [net])).
  rewrite step_Arrive_head, start_is_loading.
  destruct (finish_cases net) as [[e [_ [Hfin Hrun]]] | [v [_ [Hfin Hrun]]]];
    destruct (Hrun s n) as [-> ->]; rewrite Hfin; repeat split.
Qed.

(** X15. While isLoading is true a click does nothing, because the button is
    disabled; otherwise a click calls fetchJoke. *)
Theorem click_is_guarded (net : settled Response) (ses : Session) :
  step (Click net) ses
  = if isLoading (view ses) then ses else call_fetch net ses.
Proof.
  unfold step. rewrite buttons_App.
  destruct (isLoading (view ses)); reflexivity.
Qed.

Lemma step_keeps_loading_matches_flight (e : Event) (ses : Session) :
  page_event e = true ->
  loading_matches_flight ses -> loading_matches_flight (step e ses).
Proof.
  intros He Hinv. destruct e as [net | | i | net]; try discriminate He.
  - destruct Hinv as [[Hfl Hload] | [net [Hfl Hload]]]; unfold step;
      rewrite Hfl.
    + destruct i; cbn; left; now split.
    + destruct i as [|i].
      * cbn [nth_error remove_nth firstn skipn app]. left. split; trivial.
        destruct (finish_cases net) as [[e [_ [-> _]]] | [v [_ [-> _]]]];
          reflexivity.
      * destruct i; cbn; right; exists net; now split.
  - unfold step. rewrite buttons_App.
    destruct Hinv as [[Hfl Hload] | [net' [Hfl Hload]]]; rewrite Hload.
    + right. exists net. unfold invoke, call_fetch. cbn [in_flight view].
      rewrite Hfl. now split.
    + right. exists net'. now split.
Qed.

(** X16. Through the page, that is by clicks and arrivals of answers in any
    order and number, starting from the initial state, there is never more
    than one request in flight, and isLoading is true exactly while there is
    one. *)
Theorem page_keeps_one_request (events : list Event) :
  forallb page_event events = true ->
  let ses := run_events events (mkSession useJoke.initial []) in
  (length (in_flight ses) <= 1)%nat /\
  isLoading (view ses) = negb (Nat.eqb (length (in_flight ses)) 0).
Proof.
  intros Hpage.
  assert (Hinv : loading_matches_flight
                   (run_events events (mkSession useJoke.initial []))).
  { assert (Hstart : loading_matches_flight (mkSession useJoke.initial []))
      by (left; now split).
    revert Hpage Hstart. generalize (mkSession useJoke.initial []).
    induction events as [|e events IH]; intros ses Hpage Hstart.
    - exact Hstart.
    - cbn in Hpage. apply andb_prop in Hpage. destruct Hpage as [He Hrest].
      apply (IH (step e ses) Hrest).
      now apply step_keeps_loading_matches_flight. }
  cbv zeta.
  destruct Hinv as [[-> ->] | [net [-> ->]]]; cbn; split; trivial; lia.
Qed.

Lemma page_keeps_one_request_witness :
  let ses := run_events
               [Click (Fulfilled scenario_A); Click (Fulfilled scenario_B);
                Arrive 0; Click (Fulfilled scenario_C); Arrive 3]
               (mkSession useJoke.initial []) in
  (length (in_flight ses) <= 1)%nat /\
  isLoading (view ses) = negb (Nat.eqb (length (in_flight ses)) 0).
Proof.
  apply (page_keeps_one_request
           [Click (Fulfilled scenario_A); Click (Fulfilled scenario_B);
            Arrive 0; Click (Fulfilled scenario_C); Arrive 3]).
  reflexivity.
Defined.

(** X17. The hook itself does not guard against a second call: when fetch()
    is called twice and the first answer arrives, isLoading is false, the
    loading indicator is gone and the button is enabled, although the second
    request is still in flight. *)
Theorem overlapping_calls_clear_loading_early
    (a b : settled Response) (s : FetchState) :
  let ses := run_events [CallFetch a; CallFetch b; Arrive 0]
               (mkSession s []) in
  in_flight ses = [b] /\
  isLoading (view ses) = false /\
  shows "loading" (Joke (view ses)) = false /\
  buttons (App (view ses)) = [(FetchJoke, false)].
Proof.
  change (run_events [CallFetch a; CallFetch b; Arrive 0] (mkSession s []))
    with (step (Arrive 0)
            (mkSession
               (after (useJoke.fetchJoke b) 0 (after (useJoke.fetchJoke a) 0 s))
               [a; b])).
  rewrite step_Arrive_head, !start_is_loading. cbv zeta.
  cbn [in_flight view joke].
  assert (Hload : isLoading (replay (finish_effects a)
                               (mkState (joke s) true VNull)) = false)
    by (destruct (finish_cases a) as [[e [_ [-> _]]] | [v [_ [-> _]]]];
        reflexivity).
  repeat split; trivial.
  - generalize dependent (replay (finish_effects a)
                            (mkState (joke s) true VNull)).
    intros s' Hs'. render_cases s'; try reflexivity; discriminate Hs'.
  - rewrite buttons_App. now rewrite Hload.
Qed.

(** X18. With two overlapping calls, the error of the first attempt survives
    the success of the second when the failure arrives after the second call
    was made: the state then holds the new joke together with the old
    attempt's error, whereas the same two attempts one after the other leave
    error null. *)
Theorem overlapping_failure_outlives_success
    (a : settled Response) (rb : Response) (data v : value) (s : FetchState) :
  Failure a ->
  ok rb = true -> json rb = Fulfilled data ->
  get_property data "joke" = inr v ->
  view (run_events [CallFetch a; CallFetch (Fulfilled rb); Arrive 0; Arrive 0]
          (mkSession s []))
    = mkState v false (error (settle a s)) /\
  error (settle a s) <> VNull /\
  settle (Fulfilled rb) (settle a s) = mkState v false VNull.
Proof.
  intros Ha Hok Hjson Hget.
  change (run_events
            [CallFetch a; CallFetch (Fulfilled rb); Arrive 0; Arrive 0]
            (mkSession s []))
    with (step (Arrive 0) (step (Arrive 0)
            (mkSession
               (after (useJoke.fetchJoke (Fulfilled rb)) 0
                  (after (useJoke.fetchJoke a) 0 s))
               [a; Fulfilled rb]))).
  rewrite !step_Arrive_head, !start_is_loading. cbn [view joke].
  assert (Hb : finish_effects (Fulfilled rb) = [SetJoke v; SetIsLoading false]).
  { unfold finish_effects, effects_until.
    pose proof (fetchJoke_stores useJoke.initial 0 rb data v Hok Hjson Hget)
      as Hrun.
    cbn [Nat.add] in Hrun. rewrite Hrun. reflexivity. }
  assert (Hseq : forall s0, settle (Fulfilled rb) s0 = mkState v false VNull).
  { intros s0. unfold settle, after.
    pose proof (fetchJoke_stores s0 0 rb data v Hok Hjson Hget) as Hrun.
    cbn [Nat.add] in Hrun. now rewrite Hrun. }
  rewrite Hb, Hseq.
  destruct (finish_cases a) as [[e [_ [Hfin Hrun]]] | [v' [Hnot _]]];
    [|contradiction].
  unfold settle. destruct (Hrun s 0) as [_ Hafter]. cbn [Nat.add] in Hafter.
  rewrite Hfin, Hafter. repeat split. discriminate.
Qed.

Lemma overlapping_failure_outlives_success_witness :
  view (run_events
          [CallFetch (Fulfilled scenario_B); CallFetch (Fulfilled scenario_A);
           Arrive 0; Arrive 0]
          (mkSession useJoke.initial []))
    = mkState (VStr dark_mode_joke) false
        (error (settle (Fulfilled scenario_B) useJoke.initial)) /\
  error (settle (Fulfilled scenario_B) useJoke.initial) <> VNull /\
  settle (Fulfilled scenario_A) (settle (Fulfilled scenario_B) useJoke.initial)
    = mkState (VStr dark_mode_joke) false VNull.
Proof.
  apply (overlapping_failure_outlives_success (Fulfilled scenario_B) scenario_A
           (VObj [("joke", VStr dark_mode_joke)]) (VStr dark_mode_joke)
           useJoke.initial).
  - apply HttpFailure. reflexivity.
  - reflexivity.
  - reflexivity.
  - reflexivity.
Defined.

(** X19. Answers are applied in the order they arrive, not in the order the
    calls were made: when two overlapping calls both deliver a joke and the
    answer to the second call arrives first, the state ends with the joke of
    the first, older call. *)
Theorem late_answer_overwrites
    (ra rb : Response) (da db va vb : value) (s : FetchState) :
  ok ra = true -> json ra = Fulfilled da -> get_property da "joke" = inr va ->
  ok rb = true -> json rb = Fulfilled db -> get_property db "joke" = inr vb ->
  run_events
    [CallFetch (Fulfilled ra); CallFetch (Fulfilled rb); Arrive 1; Arrive 0]
    (mkSession s [])
  = mkSession (mkState va false VNull) [].
Proof.
  intros Hoka Hja Hga Hokb Hjb Hgb.
  assert (Hfin : forall r d v,
            ok r = true -> json r = Fulfilled d ->
            get_property d "joke" = inr v ->
            finish_effects (Fulfilled r) = [SetJoke v; SetIsLoading false]).
  { intros r d v Hok Hjson Hget. unfold finish_effects, effects_until.
    pose proof (fetchJoke_stores useJoke.initial 0 r d v Hok Hjson Hget)
      as Hrun.
    cbn [Nat.add] in Hrun. rewrite Hrun. reflexivity. }
  unfold run_events, step, call_fetch, remove_nth.
  cbn [fold_left view in_flight app nth_error firstn skipn].
  rewrite (Hfin ra da va Hoka Hja Hga), (Hfin rb db vb Hokb Hjb Hgb).
  reflexivity.
Qed.

Lemma late_answer_overwrites_witness :
  run_events
    [CallFetch (Fulfilled scenario_A);
     CallFetch (Fulfilled (mkResponse 200
                  (Fulfilled (VObj [("joke", VStr "a newer joke")]))));
     Arrive 1; Arrive 0]
    (mkSession dirty [])
  = mkSession (mkState (VStr dark_mode_joke) false VNull) [].
Proof.
  apply (late_answer_overwrites scenario_A
           (mkResponse 200 (Fulfilled (VObj [("joke", VStr "a newer joke")])))
           (VObj [("joke", VStr dark_mode_joke)])
           (VObj [("joke", VStr "a newer joke")])
           (VStr dark_mode_joke) (VStr "a newer joke") dirty);
    reflexivity.
Defined.

(** X20. clear() does not cancel a request in flight: calling it while the
    request is pending gives, once the answer arrives, the same state as
    calling it just before fetch(), so a joke that arrives after the clear
    is stored and shown. *)
Theorem clear_does_not_cancel (net : settled Response) (s : FetchState) :
  run_events [CallFetch net; CallClear; Arrive 0] (mkSession s [])
    = run_events [CallClear; CallFetch net; Arrive 0] (mkSession s []) /\
  run_events [CallFetch net; CallClear; Arrive 0] (mkSession s [])
    = mkSession (settle net (after useJoke.clearJoke 0 s)) [].
Proof.
  unfold run_events, step, call_fetch, call_clear, remove_nth, settle.
  cbn [fold_left view in_flight app nth_error firstn skipn].
  rewrite !start_is_loading.
  change (after useJoke.clearJoke 0 s)
    with (mkState (VStr EmptyString) (isLoading s) VNull).
  change (after useJoke.clearJoke 0 (mkState (joke s) true VNull))
    with (mkState (VStr EmptyString) true VNull).
  cbn [joke].
  destruct (finish_cases net) as [[e [_ [Hfin Hrun]]] | [v [_ [Hfin Hrun]]]];
    rewrite Hfin;
    destruct (Hrun (mkState (VStr EmptyString) (isLoading s) VNull) 0)
      as [_ Hafter];
    cbn [Nat.add] in Hafter; rewrite Hafter; split; reflexivity.
Qed.
